(** * Client synchronizer of the poker table: the zustand game store and the
    WebSocket message handler.

    The development embeds the store of [web/src/store/gameStore.ts] (its
    state and its reducers) and the [ws.onmessage] dispatcher of
    [web/src/hooks/useWebSocket.ts], and proves how full-state, delta,
    reasoning and timer events act on the client state.  It also embeds
    the senders of the hook, the keyboard shortcuts, and the decisions the
    table, the countdown views and the session form take from that state
    (what is drawn, not how).

    Conventions of the embedding.
    - A JavaScript [number] that the backend fills with an integer (player
      ids, chip counts, seconds, timestamps) is a [Z].
    - An optional or nullable field ([x?: T], [T | null]) is an [option];
      [null] and [undefined] are both [None]: the reducers only ever test
      such values with [!v], [v || null] and [v ?? w], which do not tell the
      two apart.
    - A [Record<number, T>] is a [gmap Z T]; an array is a [list].
    - [Date.now()] is an explicit argument [now] of the reducers reading it.
    - zustand's [set(partial)] merges the keys of [partial] into the state;
      it is written as the composition of one setter per key.  A reducer
      that returns [state] itself leaves the state as it is. *)

From stdpp Require Import gmap strings list fin_maps pretty.

Open Scope Z_scope.

(** ** Types of [web/src/types] *)

Inductive Street := preflop | flop | turn | river | showdown.

Inductive ActionType := fold | check | call | raise | all_in.

Inductive PlayerType := human | llm.

Module Card.
Record t := mk { rank : string; suit : string }.
End Card.

Module ParsedAction.
Record t := mk { action_type : ActionType; amount : option Z }.
End ParsedAction.

Module PlayerState.
Record t := mk {
  id : Z;
  name : string;
  player_type : PlayerType;
  model : option string;
  stack : Z;
  current_bet : Z;
  hole_cards : option (list Card.t);
  is_active : bool;
  is_busted : bool;
  last_action : option string
}.
End PlayerState.

Module AvailableActions.
Record t := mk {
  can_fold : bool;
  can_check : bool;
  can_call : bool;
  call_amount : Z;
  can_raise : bool;
  min_raise : Z;
  max_raise : Z
}.
End AvailableActions.

Module GameState.
Record t := mk {
  session_id : string;
  hand_number : Z;
  street : Street;
  pot : Z;
  community_cards : list Card.t;
  button_position : Z;
  current_actor : option Z;
  players : list PlayerState.t;
  available_actions : option AvailableActions.t
}.
End GameState.

Module ThinkingStream.
Record t := mk {
  playerId : Z;
  isActive : bool;
  tokens : string;
  parsedAction : option ParsedAction.t;
  startTime : Z
}.
End ThinkingStream.

Module ReasoningEntry.
Record t := mk {
  handNumber : Z;
  street : Street;
  tokens : string;
  parsedAction : option ParsedAction.t;
  timestamp : Z
}.
End ReasoningEntry.

Module PlayerReasoningHistory.
Record t := mk {
  playerId : Z;
  playerName : string;
  entries : list ReasoningEntry.t;
  isExpanded : bool
}.
End PlayerReasoningHistory.

Module TurnTimerState.
Record t := mk {
  playerId : Z;
  totalSeconds : Z;
  remainingSeconds : Z;
  isExpired : bool
}.
End TurnTimerState.

(** The payload of a [game_state_update] event, which is also the argument
    of the [updateGameState] reducer. *)
Module GameStateUpdate.
Record t := mk {
  hand_number : Z;
  street : Street;
  pot : Z;
  current_actor : option Z;
  community_cards : list Card.t;
  player_stacks : list Z;
  player_bets : list Z;
  last_actions : list (option string);
  available_actions : option AvailableActions.t
}.
End GameStateUpdate.

Inductive ServerEvent :=
| ConnectionAckEvent (session_id : string) (player_id : Z)
| GameStateEvent (state : GameState.t)
| GameStateUpdateEvent (update : GameStateUpdate.t)
| YourTurnEvent (available_actions : AvailableActions.t)
| ThinkingStartEvent (player_id : Z) (player_name : string)
| ThinkingTokenEvent (player_id : Z) (token : string) (timestamp : Z)
| ThinkingCompleteEvent (player_id : Z) (action : ParsedAction.t)
    (full_text : string) (duration_ms : Z)
| TimerStartEvent (player_id : Z) (total_seconds : Z) (timestamp : Z)
| TimerTickEvent (player_id : Z) (remaining_seconds : Z)
| TimerExpiredEvent (player_id : Z) (action_taken : string)
| HandCompleteEvent (winners amounts : list Z)
    (revealed_cards : gmap Z (list Card.t))
| SessionCompleteEvent (final_stacks : list Z) (hands_played : Z)
| ErrorEvent (code message : string)
| PongEvent.

(** ** The store of [store/gameStore.ts] *)

Module HandCompleteInfo.
Record t := mk {
  winners : list Z;
  amounts : list Z;
  revealedCards : gmap Z (list Card.t);
  isVisible : bool
}.
End HandCompleteInfo.

Record GameStore := mkGameStore {
  sessionId : option string;
  isConnected : bool;
  connectionError : option string;
  gameState : option GameState.t;
  thinkingStreams : gmap Z ThinkingStream.t;
  reasoningHistory : gmap Z PlayerReasoningHistory.t;
  timer : option TurnTimerState.t;
  handComplete : option HandCompleteInfo.t;
  isMyTurn : bool;
  availableActions : option AvailableActions.t;
  lastActions : list (option string)
}.

Definition initialState : GameStore :=
  {| sessionId := None;
     isConnected := false;
     connectionError := None;
     gameState := None;
     thinkingStreams := ∅;
     reasoningHistory := ∅;
     timer := None;
     handComplete := None;
     isMyTurn := false;
     availableActions := None;
     lastActions := [] |}.

(** One setter per key of the state: [set({k: v})]. *)
Section setters.
Variable s : GameStore.

Definition set_sessionId (v : option string) : GameStore :=
  mkGameStore v (isConnected s) (connectionError s) (gameState s)
    (thinkingStreams s) (reasoningHistory s) (timer s) (handComplete s)
    (isMyTurn s) (availableActions s) (lastActions s).

Definition set_isConnected (v : bool) : GameStore :=
  mkGameStore (sessionId s) v (connectionError s) (gameState s)
    (thinkingStreams s) (reasoningHistory s) (timer s) (handComplete s)
    (isMyTurn s) (availableActions s) (lastActions s).

Definition set_connectionError (v : option string) : GameStore :=
  mkGameStore (sessionId s) (isConnected s) v (gameState s)
    (thinkingStreams s) (reasoningHistory s) (timer s) (handComplete s)
    (isMyTurn s) (availableActions s) (lastActions s).

Definition set_gameState (v : option GameState.t) : GameStore :=
  mkGameStore (sessionId s) (isConnected s) (connectionError s) v
    (thinkingStreams s) (reasoningHistory s) (timer s) (handComplete s)
    (isMyTurn s) (availableActions s) (lastActions s).

Definition set_thinkingStreams (v : gmap Z ThinkingStream.t) : GameStore :=
  mkGameStore (sessionId s) (isConnected s) (connectionError s) (gameState s)
    v (reasoningHistory s) (timer s) (handComplete s)
    (isMyTurn s) (availableActions s) (lastActions s).

Definition set_reasoningHistory (v : gmap Z PlayerReasoningHistory.t)
  : GameStore :=
  mkGameStore (sessionId s) (isConnected s) (connectionError s) (gameState s)
    (thinkingStreams s) v (timer s) (handComplete s)
    (isMyTurn s) (availableActions s) (lastActions s).

Definition set_timer (v : option TurnTimerState.t) : GameStore :=
  mkGameStore (sessionId s) (isConnected s) (connectionError s) (gameState s)
    (thinkingStreams s) (reasoningHistory s) v (handComplete s)
    (isMyTurn s) (availableActions s) (lastActions s).

Definition set_handComplete (v : option HandCompleteInfo.t) : GameStore :=
  mkGameStore (sessionId s) (isConnected s) (connectionError s) (gameState s)
    (thinkingStreams s) (reasoningHistory s) (timer s) v
    (isMyTurn s) (availableActions s) (lastActions s).

Definition set_isMyTurn (v : bool) : GameStore :=
  mkGameStore (sessionId s) (isConnected s) (connectionError s) (gameState s)
    (thinkingStreams s) (reasoningHistory s) (timer s) (handComplete s)
    v (availableActions s) (lastActions s).

Definition set_availableActions (v : option AvailableActions.t) : GameStore :=
  mkGameStore (sessionId s) (isConnected s) (connectionError s) (gameState s)
    (thinkingStreams s) (reasoningHistory s) (timer s) (handComplete s)
    (isMyTurn s) v (lastActions s).

Definition set_lastActions (v : list (option string)) : GameStore :=
  mkGameStore (sessionId s) (isConnected s) (connectionError s) (gameState s)
    (thinkingStreams s) (reasoningHistory s) (timer s) (handComplete s)
    (isMyTurn s) (availableActions s) v.

End setters.

(** [a ?? b] on a value that is absent ([None]) or present. *)
Definition nullish {A} (a : option A) (b : A) : A :=
  match a with Some v => v | None => b end.

(** [v === 0] on a [number | null]. *)
Definition is_zero (v : option Z) : bool := bool_decide (v = Some 0).

(** *** Connection reducers *)

Definition setSessionId (id : option string) (s : GameStore) : GameStore :=
  set_sessionId s id.

Definition setConnected (connected : bool) (s : GameStore) : GameStore :=
  set_isConnected s connected.

Definition setConnectionError (error : option string) (s : GameStore)
  : GameStore :=
  set_connectionError s error.

(** *** Game state reducers *)

Definition setGameState (state : GameState.t) (s : GameStore) : GameStore :=
  set_availableActions
    (set_isMyTurn
       (set_gameState s (Some state))
       (is_zero (GameState.current_actor state)))
    (GameState.available_actions state).

(** The body of [state.gameState.players.map((player, idx) => ...)]:
    [update.xs[idx] ?? player.x] reads the array at [idx], and falls back
    to the player's own value when the index is out of range or, for
    [last_actions], when the entry is [null]. *)
Definition updatePlayer (update : GameStateUpdate.t) (idx : nat)
    (player : PlayerState.t) : PlayerState.t :=
  PlayerState.mk
    (PlayerState.id player)
    (PlayerState.name player)
    (PlayerState.player_type player)
    (PlayerState.model player)
    (nullish (GameStateUpdate.player_stacks update !! idx)
       (PlayerState.stack player))
    (nullish (GameStateUpdate.player_bets update !! idx)
       (PlayerState.current_bet player))
    (PlayerState.hole_cards player)
    (PlayerState.is_active player)
    (PlayerState.is_busted player)
    (match mjoin (GameStateUpdate.last_actions update !! idx) with
     | Some a => Some a
     | None => PlayerState.last_action player
     end).

Definition updateGameState (update : GameStateUpdate.t) (s : GameStore)
  : GameStore :=
  match gameState s with
  | None => s
  | Some g =>
    let updatedPlayers := imap (updatePlayer update) (GameState.players g) in
    set_lastActions
      (set_availableActions
         (set_isMyTurn
            (set_gameState s
               (Some (GameState.mk
                  (GameState.session_id g)
                  (GameStateUpdate.hand_number update)
                  (GameStateUpdate.street update)
                  (GameStateUpdate.pot update)
                  (GameStateUpdate.community_cards update)
                  (GameState.button_position g)
                  (GameStateUpdate.current_actor update)
                  updatedPlayers
                  (GameStateUpdate.available_actions update))))
            (is_zero (GameStateUpdate.current_actor update)))
         (GameStateUpdate.available_actions update))
      (GameStateUpdate.last_actions update)
  end.

Definition setMyTurn (myTurn : bool) (actions : option AvailableActions.t)
    (s : GameStore) : GameStore :=
  set_availableActions (set_isMyTurn s myTurn) actions.

(** *** Thinking stream reducers *)

Definition startThinking (now : Z) (playerId : Z) (playerName : string)
    (s : GameStore) : GameStore :=
  let existingHistory := reasoningHistory s !! playerId in
  let updatedHistory :=
    nullish existingHistory
      (PlayerReasoningHistory.mk playerId playerName [] true) in
  set_reasoningHistory
    (set_thinkingStreams s
       (<[playerId := ThinkingStream.mk playerId true EmptyString None now]>
          (thinkingStreams s)))
    (<[playerId := updatedHistory]> (reasoningHistory s)).

Definition addThinkingToken (playerId : Z) (token : string) (s : GameStore)
  : GameStore :=
  match thinkingStreams s !! playerId with
  | None => s
  | Some stream =>
    set_thinkingStreams s
      (<[playerId :=
           ThinkingStream.mk
             (ThinkingStream.playerId stream)
             (ThinkingStream.isActive stream)
             (ThinkingStream.tokens stream +:+ token)
             (ThinkingStream.parsedAction stream)
             (ThinkingStream.startTime stream)]>
         (thinkingStreams s))
  end.

Definition completeThinking (now : Z) (playerId : Z)
    (action : ParsedAction.t) (s : GameStore) : GameStore :=
  match thinkingStreams s !! playerId with
  | None => s
  | Some stream =>
    let newEntry :=
      ReasoningEntry.mk
        (nullish (GameState.hand_number <$> gameState s) 0)
        (nullish (GameState.street <$> gameState s) preflop)
        (ThinkingStream.tokens stream)
        (Some action)
        now in
    let updatedHistory :=
      match reasoningHistory s !! playerId with
      | Some playerHistory =>
        PlayerReasoningHistory.mk
          (PlayerReasoningHistory.playerId playerHistory)
          (PlayerReasoningHistory.playerName playerHistory)
          (PlayerReasoningHistory.entries playerHistory ++ [newEntry])
          (PlayerReasoningHistory.isExpanded playerHistory)
      | None =>
        PlayerReasoningHistory.mk playerId
          ("Player " +:+ pretty playerId) [newEntry] true
      end in
    set_reasoningHistory
      (set_thinkingStreams s
         (<[playerId :=
              ThinkingStream.mk
                (ThinkingStream.playerId stream)
                false
                (ThinkingStream.tokens stream)
                (Some action)
                (ThinkingStream.startTime stream)]>
            (thinkingStreams s)))
      (<[playerId := updatedHistory]> (reasoningHistory s))
  end.

Definition clearThinking (playerId : Z) (s : GameStore) : GameStore :=
  set_thinkingStreams s (delete playerId (thinkingStreams s)).

Definition clearAllThinking (s : GameStore) : GameStore :=
  set_thinkingStreams s ∅.

(** *** Reasoning history reducers *)

Definition toggleReasoningExpanded (playerId : Z) (s : GameStore)
  : GameStore :=
  match reasoningHistory s !! playerId with
  | None => s
  | Some playerHistory =>
    set_reasoningHistory s
      (<[playerId :=
           PlayerReasoningHistory.mk
             (PlayerReasoningHistory.playerId playerHistory)
             (PlayerReasoningHistory.playerName playerHistory)
             (PlayerReasoningHistory.entries playerHistory)
             (negb (PlayerReasoningHistory.isExpanded playerHistory))]>
         (reasoningHistory s))
  end.

Definition clearReasoningHistory (s : GameStore) : GameStore :=
  set_reasoningHistory s ∅.

(** *** Timer reducers *)

Definition startTimer (playerId totalSeconds : Z) (s : GameStore)
  : GameStore :=
  set_timer s
    (Some (TurnTimerState.mk playerId totalSeconds totalSeconds false)).

Definition updateTimer (remainingSeconds : Z) (s : GameStore) : GameStore :=
  match timer s with
  | None => s
  | Some t =>
    set_timer s
      (Some (TurnTimerState.mk
               (TurnTimerState.playerId t)
               (TurnTimerState.totalSeconds t)
               remainingSeconds
               (TurnTimerState.isExpired t)))
  end.

Definition expireTimer (s : GameStore) : GameStore :=
  match timer s with
  | None => s
  | Some t =>
    set_isMyTurn
      (set_timer s
         (Some (TurnTimerState.mk
                  (TurnTimerState.playerId t)
                  (TurnTimerState.totalSeconds t)
                  0
                  true)))
      false
  end.

Definition clearTimer (s : GameStore) : GameStore := set_timer s None.

(** *** Hand complete reducers *)

Definition setHandComplete (winners amounts : list Z)
    (revealedCards : gmap Z (list Card.t)) (s : GameStore) : GameStore :=
  set_thinkingStreams
    (set_reasoningHistory
       (set_handComplete s
          (Some (HandCompleteInfo.mk winners amounts revealedCards true)))
       ∅)
    ∅.

Definition dismissHandComplete (s : GameStore) : GameStore :=
  set_handComplete s None.

Definition reset (s : GameStore) : GameStore :=
  mkGameStore
    (sessionId initialState) (isConnected initialState)
    (connectionError initialState) (gameState initialState)
    (thinkingStreams initialState) (reasoningHistory initialState)
    (timer initialState) (handComplete initialState)
    (isMyTurn initialState) (availableActions initialState)
    (lastActions initialState).

(** ** The dispatcher [ws.onmessage] of [hooks/useWebSocket.ts]

    [onmessage now data s] is the store after the handler has run on the
    parsed event [data] at wall-clock time [now].  The calls on [store] are
    applied in the order of the source; the [onConnect]/[onError] callbacks
    and the console output do not touch the store. *)
Definition onmessage (now : Z) (data : ServerEvent) (s : GameStore)
  : GameStore :=
  match data with
  | ConnectionAckEvent _ _ => setConnectionError None (setConnected true s)
  | GameStateEvent state => clearAllThinking (setGameState state s)
  | GameStateUpdateEvent update => updateGameState update s
  | YourTurnEvent actions => setMyTurn true (Some actions) s
  | ThinkingStartEvent player_id player_name =>
    startThinking now player_id player_name s
  | ThinkingTokenEvent player_id token _ => addThinkingToken player_id token s
  | ThinkingCompleteEvent player_id action _ _ =>
    completeThinking now player_id action s
  | TimerStartEvent player_id total_seconds _ =>
    startTimer player_id total_seconds s
  | TimerTickEvent _ remaining_seconds => updateTimer remaining_seconds s
  | TimerExpiredEvent _ _ => expireTimer s
  | HandCompleteEvent winners amounts revealed_cards =>
    setHandComplete winners amounts revealed_cards (clearTimer s)
  | SessionCompleteEvent _ _ => s
  | ErrorEvent _ message => setConnectionError (Some message) s
  | PongEvent => s
  end.

(** The store after a sequence of events, each with the time at which the
    handler ran, delivered in list order. *)
Definition deliver (evs : list (Z * ServerEvent)) (s : GameStore)
  : GameStore :=
  foldl (λ st ev, onmessage ev.1 ev.2 st) s evs.

(** ** Sample data used by the closed examples *)

Definition sampleActions : AvailableActions.t :=
  AvailableActions.mk true true false 0 true 200 10000.

Definition samplePlayers : list PlayerState.t :=
  [ PlayerState.mk 0 "You" human None 10000 0 None true false None;
    PlayerState.mk 1 "Bot" llm (Some "llama3") 9900 100 None true false
      (Some "call") ].

Definition sampleState : GameState.t :=
  GameState.mk "s-1" 1 preflop 150 [] 0 (Some 1) samplePlayers None.

Definition sampleUpdate : GameStateUpdate.t :=
  GameStateUpdate.mk 1 flop 200 (Some 0) [Card.mk "A" "s"]
    [9900; 9900] [0; 0] [Some "check"; None] (Some sampleActions).

(** A store in which it is the human's turn and the countdown runs. *)
Definition humanTurnStore : GameStore :=
  deliver [ (0, GameStateEvent sampleState);
            (1, YourTurnEvent sampleActions);
            (2, TimerStartEvent 0 30 2) ] initialState.

(** A store in which player 1 is streaming its reasoning. *)
Definition thinkingStore : GameStore :=
  deliver [ (0, GameStateEvent sampleState);
            (1, ThinkingStartEvent 1 "Bot");
            (2, ThinkingTokenEvent 1 "I " 2) ] initialState.

(** ** Timer events *)

Definition is_timer_event (data : ServerEvent) : bool :=
  match data with
  | TimerStartEvent _ _ _ | TimerTickEvent _ _ | TimerExpiredEvent _ _ => true
  | _ => false
  end.

Definition is_timer_expired (data : ServerEvent) : bool :=
  match data with
  | TimerExpiredEvent _ _ => true
  | _ => false
  end.

(** ** Full-state and delta events *)

(** The [current_actor] field of a full-state or delta event; [None] for
    every other event. *)
Definition event_current_actor (data : ServerEvent) : option (option Z) :=
  match data with
  | GameStateEvent state => Some (GameState.current_actor state)
  | GameStateUpdateEvent update => Some (GameStateUpdate.current_actor update)
  | _ => None
  end.

Definition is_delta_event (data : ServerEvent) : bool :=
  match data with
  | GameStateUpdateEvent _ => true
  | _ => false
  end.

(** The fields of a player that no delta carries. *)
Definition playerIdentity (p : PlayerState.t)
  : Z * string * PlayerType * option string * option (list Card.t)
    * bool * bool :=
  (PlayerState.id p, PlayerState.name p, PlayerState.player_type p,
   PlayerState.model p, PlayerState.hole_cards p,
   PlayerState.is_active p, PlayerState.is_busted p).

(** ** Reasoning events *)

(** [thinking_token] events addressed to [playerId]. *)
Definition is_token_for (playerId : Z) (data : ServerEvent) : bool :=
  match data with
  | ThinkingTokenEvent q _ _ => bool_decide (q = playerId)
  | _ => false
  end.

Definition token_payload (data : ServerEvent) : string :=
  match data with
  | ThinkingTokenEvent _ token _ => token
  | _ => EmptyString
  end.

(** The token texts of a sequence of events, concatenated in list order. *)
Definition payloads (evs : list (Z * ServerEvent)) : string :=
  foldr (λ ev acc, token_payload ev.2 +:+ acc) EmptyString evs.

Definition with_tokens (stream : ThinkingStream.t) (text : string)
  : ThinkingStream.t :=
  ThinkingStream.mk
    (ThinkingStream.playerId stream) (ThinkingStream.isActive stream)
    text
    (ThinkingStream.parsedAction stream) (ThinkingStream.startTime stream).

(** The store with the start timestamp of every thinking stream blanked. *)
Definition forget_startTime (s : GameStore) : GameStore :=
  set_thinkingStreams s
    ((λ stream,
        ThinkingStream.mk
          (ThinkingStream.playerId stream) (ThinkingStream.isActive stream)
          (ThinkingStream.tokens stream) (ThinkingStream.parsedAction stream)
          0) <$> thinkingStreams s).

(** ** Well-formed stores *)

(** What every thinking stream of a store built by the reducers satisfies:
    it is filed under its own player id, and it is active exactly while it
    has no parsed action. *)
Definition stream_wf (p : Z) (stream : ThinkingStream.t) : Prop :=
  ThinkingStream.playerId stream = p ∧
  (ThinkingStream.isActive stream = true
   ↔ ThinkingStream.parsedAction stream = None).

(** A reasoning history is filed under its own player id and each of its
    entries records a parsed action. *)
Definition history_wf (p : Z) (h : PlayerReasoningHistory.t) : Prop :=
  PlayerReasoningHistory.playerId h = p ∧
  Forall (λ e, is_Some (ReasoningEntry.parsedAction e))
    (PlayerReasoningHistory.entries h).

Definition store_wf (s : GameStore) : Prop :=
  map_Forall stream_wf (thinkingStreams s) ∧
  map_Forall history_wf (reasoningHistory s).

Definition is_thinking_event (data : ServerEvent) : bool :=
  match data with
  | ThinkingStartEvent _ _ | ThinkingTokenEvent _ _ _
  | ThinkingCompleteEvent _ _ _ _ => true
  | _ => false
  end.

Definition is_thinking_start (data : ServerEvent) : bool :=
  match data with
  | ThinkingStartEvent _ _ => true
  | _ => false
  end.

Definition is_timer_tick (data : ServerEvent) : bool :=
  match data with
  | TimerTickEvent _ _ => true
  | _ => false
  end.

Definition tick_seconds (data : ServerEvent) : option Z :=
  match data with
  | TimerTickEvent _ remaining_seconds => Some remaining_seconds
  | _ => None
  end.

(** The entry that [completeThinking] files: hand number and street of the
    held game state (0 and preflop when none is held), the accumulated
    text, the action and the time of completion. *)
Definition completedEntry (now : Z) (s : GameStore) (text : string)
    (action : ParsedAction.t) : ReasoningEntry.t :=
  ReasoningEntry.mk
    (nullish (GameState.hand_number <$> gameState s) 0)
    (nullish (GameState.street <$> gameState s) preflop)
    text (Some action) now.

(** ** Client messages and the senders of [hooks/useWebSocket.ts] *)

Inductive ClientMessage :=
| PlayerActionMessage (action_type : string) (amount : option Z)
| StartHandMessage
| EndSessionMessage
| PingMessage.

(** [sendMessage]: the messages written to the socket.  [wsOpen] is the
    test [wsRef.current?.readyState === WebSocket.OPEN]; when it fails the
    message is not sent (an error is logged). *)
Definition sendMessage (wsOpen : bool) (message : ClientMessage)
  : list ClientMessage :=
  if wsOpen then [message] else [].

(** [sendAction]: the messages written to the socket and the store after
    [setMyTurn(false)] and [clearTimer()]. *)
Definition sendAction (wsOpen : bool) (actionType : string)
    (amount : option Z) (s : GameStore) : list ClientMessage * GameStore :=
  (sendMessage wsOpen (PlayerActionMessage actionType amount),
   clearTimer (setMyTurn false None s)).

(** The keyboard shortcuts of [GameWrapper]; [key] is the value of
    [e.key.toLowerCase()]. *)
Definition handleKeyDown (wsOpen : bool) (key : string) (s : GameStore)
  : list ClientMessage * GameStore :=
  match availableActions s with
  | Some actions =>
    if negb (isMyTurn s) then ([], s)
    else if String.eqb key "f" then
      if AvailableActions.can_fold actions
      then sendAction wsOpen "fold" None s else ([], s)
    else if String.eqb key "c" then
      if AvailableActions.can_check actions
      then sendAction wsOpen "check" None s
      else if AvailableActions.can_call actions
      then sendAction wsOpen "call" None s else ([], s)
    else ([], s)
  | None => ([], s)
  end.

(** The check/call button of [ActionPanel], with [onAction] bound to
    [sendAction] as [PokerTable] does. *)
Definition handleCheckCall (wsOpen : bool) (actions : option AvailableActions.t)
    (s : GameStore) : list ClientMessage * GameStore :=
  if nullish (AvailableActions.can_check <$> actions) false
  then sendAction wsOpen "check" None s
  else sendAction wsOpen "call" None s.

(** ** The table of [components/game/PokerTable] *)

(** What the bottom of the table shows. *)
Inductive BottomPanel :=
| WaitingForGame
| StartHandButton
| ActionButtons (actions : AvailableActions.t)
    (timer : option TurnTimerState.t)
| NoButtons
| WaitingFor (name : string)
| Waiting.

(** [players[current_actor]], an index that may be negative or too big. *)
Definition playerAt (players : list PlayerState.t) (idx : Z)
  : option PlayerState.t :=
  if bool_decide (0 ≤ idx) then players !! Z.to_nat idx else None.

(** [v || 'opponent'] on a name: an absent or empty name gives the
    default. *)
Definition nameOr (name : option string) (default : string) : string :=
  match name with
  | Some (String c n) => String c n
  | _ => default
  end.

Definition bottomPanel (s : GameStore) : BottomPanel :=
  match gameState s with
  | None => WaitingForGame
  | Some g =>
    if bool_decide (GameState.hand_number g = 0) then StartHandButton
    else if isMyTurn s then
      match availableActions s with
      | Some actions => ActionButtons actions (timer s)
      | None => NoButtons
      end
    else
      match GameState.current_actor g with
      | Some actor =>
        WaitingFor
          (nameOr (PlayerState.name <$> playerAt (GameState.players g) actor)
             "opponent")
      | None => Waiting
      end
  end.

(** The countdown ring is drawn when [isMyTurn && timer] and a game state
    is held. *)
Definition showsTurnTimer (s : GameStore) : bool :=
  bool_decide (is_Some (gameState s)) && isMyTurn s
  && bool_decide (is_Some (timer s)).

(** [a % n] for an integer [a] and an array length [n]: [NaN] ([None])
    when the array is empty, else the remainder with the sign of [a]. *)
Definition jsRem (a : Z) (n : nat) : option Z :=
  match n with
  | O => None
  | S _ => Some (Z.rem a (Z.of_nat n))
  end.

Definition sbPosition (g : GameState.t) : option Z :=
  jsRem (GameState.button_position g + 1) (length (GameState.players g)).

Definition bbPosition (g : GameState.t) : option Z :=
  jsRem (GameState.button_position g + 2) (length (GameState.players g)).

(** The seat markers handed to [PlayerSeat] for the seat at [idx]. *)
Definition isDealer (g : GameState.t) (idx : nat) : bool :=
  bool_decide (GameState.button_position g = Z.of_nat idx).

Definition isSmallBlind (g : GameState.t) (idx : nat) : bool :=
  bool_decide (sbPosition g = Some (Z.of_nat idx)).

Definition isBigBlind (g : GameState.t) (idx : nat) : bool :=
  bool_decide (bbPosition g = Some (Z.of_nat idx)).

(** [thinkingStreams[player.id]?.isActive ?? false]. *)
Definition isThinking (s : GameStore) (player : PlayerState.t) : bool :=
  nullish
    (ThinkingStream.isActive <$> thinkingStreams s !! PlayerState.id player)
    false.

(** Whether the move buttons are on screen. *)
Definition showsButtons (s : GameStore) : bool :=
  match bottomPanel s with
  | ActionButtons _ _ => true
  | _ => false
  end.

(** Events that empty the thinking streams. *)
Definition clears_streams (data : ServerEvent) : bool :=
  match data with
  | GameStateEvent _ | HandCompleteEvent _ _ _ => true
  | _ => false
  end.

(** [thinking_token] and [thinking_complete] events, for any player. *)
Definition is_stream_update (data : ServerEvent) : bool :=
  match data with
  | ThinkingTokenEvent _ _ _ | ThinkingCompleteEvent _ _ _ _ => true
  | _ => false
  end.

(** [timer_tick] and [timer_expired] events. *)
Definition is_timer_update (data : ServerEvent) : bool :=
  match data with
  | TimerTickEvent _ _ | TimerExpiredEvent _ _ => true
  | _ => false
  end.

(** The seconds carried by the [timer_tick] events of a sequence. *)
Definition ticks (evs : list (Z * ServerEvent)) : list Z :=
  omap (λ ev, tick_seconds ev.2) evs.

(** ** The countdown views of [components/game/TurnTimer] *)

Module TurnTimer.
Definition getColor (t : TurnTimerState.t) : string :=
  if TurnTimerState.isExpired t
     || bool_decide (TurnTimerState.remainingSeconds t ≤ 0)
  then "#ef4444"
  else if bool_decide (TurnTimerState.remainingSeconds t ≤ 5) then "#ef4444"
  else if bool_decide (TurnTimerState.remainingSeconds t ≤ 10) then "#f59e0b"
  else "#10b981".

Definition getAnimationClass (t : TurnTimerState.t) : string :=
  if bool_decide (TurnTimerState.remainingSeconds t ≤ 5)
  then "timer-critical"
  else if bool_decide (TurnTimerState.remainingSeconds t ≤ 10)
  then "timer-warning"
  else EmptyString.

(** [Math.max(0, remainingSeconds)], the number in the ring. *)
Definition shownSeconds (t : TurnTimerState.t) : Z :=
  Z.max 0 (TurnTimerState.remainingSeconds t).
End TurnTimer.

Module InlineTimer.
Definition getColorClass (t : TurnTimerState.t) : string :=
  if TurnTimerState.isExpired t
     || bool_decide (TurnTimerState.remainingSeconds t ≤ 0)
  then "text-red-500"
  else if bool_decide (TurnTimerState.remainingSeconds t ≤ 5)
  then "text-red-500 timer-critical"
  else if bool_decide (TurnTimerState.remainingSeconds t ≤ 10)
  then "text-yellow-500 timer-warning"
  else "text-emerald-500".
End InlineTimer.

(** ** The session form of [components/game/GameSetup] *)

Module OpponentConfig.
Record t := mk { name : string; model : string; temperature : option Z }.
End OpponentConfig.

Module SessionConfigRequest.
Record t := mk {
  opponents : list OpponentConfig.t;
  starting_stack : option Z;
  small_blind : option Z;
  big_blind : option Z;
  num_hands : option Z;
  turn_timeout_seconds : option Z
}.
End SessionConfigRequest.


(** ** Properties of full-state events *)

(** C1, as stated, fails: the [game_state] handler calls [setGameState] and
    [clearAllThinking] only, so a countdown that was running when the
    snapshot arrives is still in the store afterwards. *)
Lemma game_state_event_timer_not_cleared :
  let s' := onmessage 3 (GameStateEvent sampleState) humanTurnStore in
  ¬ (gameState s' = Some sampleState ∧ thinkingStreams s' = ∅ ∧
     timer s' = None).
Proof. intros s' (_ & _ & Ht). vm_compute in Ht. discriminate Ht. Qed.

(** C1 (amended): after the [game_state] handler has run, the stored game
    state is the snapshot of the event, the my-turn flag and the available
    actions are those of the snapshot, every reasoning accumulator is
    cleared, and the timer state is the one the store had before. *)
Theorem game_state_event_replaces_state now state s :
  let s' := onmessage now (GameStateEvent state) s in
  gameState s' = Some state ∧
  isMyTurn s' = is_zero (GameState.current_actor state) ∧
  availableActions s' = GameState.available_actions state ∧
  thinkingStreams s' = ∅ ∧
  timer s' = timer s.
Proof. cbn. repeat split. Qed.

(** C2, as stated, fails: [expireTimer] writes [isMyTurn: false] whenever a
    timer is present, so a [timer_expired] event arriving during the human's
    turn turns the my-turn flag off. *)
Lemma timer_expired_changes_my_turn :
  let s := humanTurnStore in
  let s' := onmessage 32 (TimerExpiredEvent 0 "fold") s in
  ¬ (isMyTurn s' = isMyTurn s ∧
     availableActions s' = availableActions s ∧
     gameState s' = gameState s).
Proof. intros s s' (Ht & _). vm_compute in Ht. discriminate Ht. Qed.

(** C2 (amended): a timer event never changes the available actions, the
    game state or any key of the store other than the timer and the my-turn
    flag; [timer_start] and [timer_tick] leave the my-turn flag as it is,
    and so does [timer_expired] when the store holds no timer, while
    [timer_expired] with a timer in the store sets the flag to false. *)
Theorem timer_event_frame now data s :
  is_timer_event data = true →
  let s' := onmessage now data s in
  availableActions s' = availableActions s ∧
  gameState s' = gameState s ∧
  thinkingStreams s' = thinkingStreams s ∧
  reasoningHistory s' = reasoningHistory s ∧
  lastActions s' = lastActions s ∧
  handComplete s' = handComplete s ∧
  isMyTurn s' =
    (if is_timer_expired data && bool_decide (is_Some (timer s))
     then false else isMyTurn s).
Proof.
  destruct data; try discriminate; intros _; cbn.
  - repeat split.
  - unfold updateTimer. destruct (timer s); repeat split.
  - unfold expireTimer. destruct (timer s) as [t|] eqn:Ht.
    + rewrite bool_decide_eq_true_2 by eauto. repeat split.
    + rewrite bool_decide_eq_false_2 by (intros [? ?]; discriminate).
      repeat split.
Qed.

Lemma timer_event_frame_witness :
  is_timer_event (TimerExpiredEvent 0 "fold") = true ∧
  isMyTurn (onmessage 32 (TimerExpiredEvent 0 "fold") humanTurnStore) = false.
Proof.
  split; [reflexivity|].
  apply (timer_event_frame 32 (TimerExpiredEvent 0 "fold") humanTurnStore).
  reflexivity.
Defined.

(** ** Events that find nothing to act on *)

(** C9: a delta that arrives while the store holds no game state is
    dropped: [updateGameState] returns the store as it was. *)
Theorem updateGameState_without_state update s :
  gameState s = None → updateGameState update s = s.
Proof. intros Hg. unfold updateGameState. by rewrite Hg. Qed.

Lemma updateGameState_without_state_witness :
  gameState initialState = None ∧
  updateGameState sampleUpdate initialState = initialState.
Proof.
  split; [reflexivity|].
  apply (updateGameState_without_state sampleUpdate initialState).
  reflexivity.
Defined.

(** C10: a reasoning token or a reasoning completion for a player that has
    no thinking stream leaves the store as it was: neither reducer creates
    a stream, and the token text and the parsed action are discarded. *)
Theorem thinking_without_stream playerId s :
  thinkingStreams s !! playerId = None →
  (∀ token, addThinkingToken playerId token s = s) ∧
  (∀ now action, completeThinking now playerId action s = s).
Proof.
  intros Hs. split; intros.
  - unfold addThinkingToken. by rewrite Hs.
  - unfold completeThinking. by rewrite Hs.
Qed.

Lemma thinking_without_stream_witness :
  thinkingStreams thinkingStore !! 2 = None ∧
  addThinkingToken 2 "hm" thinkingStore = thinkingStore ∧
  completeThinking 9 2 (ParsedAction.mk fold None) thinkingStore
  = thinkingStore.
Proof.
  assert (H : thinkingStreams thinkingStore !! 2 = None) by reflexivity.
  split; [exact H|].
  split; [apply (thinking_without_stream 2 thinkingStore H)|].
  apply (thinking_without_stream 2 thinkingStore H).
Defined.

(** ** Delta events *)

Lemma updatePlayer_idemp update idx player :
  updatePlayer update idx (updatePlayer update idx player)
  = updatePlayer update idx player.
Proof.
  unfold updatePlayer; cbn. f_equal.
  - by destruct (GameStateUpdate.player_stacks update !! idx).
  - by destruct (GameStateUpdate.player_bets update !! idx).
  - by destruct (mjoin (GameStateUpdate.last_actions update !! idx)).
Qed.

Lemma imap_updatePlayer_idemp update (l : list PlayerState.t) :
  imap (updatePlayer update) (imap (updatePlayer update) l)
  = imap (updatePlayer update) l.
Proof.
  apply list_eq; intros i. rewrite !list_lookup_imap.
  destruct (l !! i) as [p|]; cbn; [|done].
  by rewrite updatePlayer_idemp.
Qed.

Lemma updatePlayer_identity update idx player :
  playerIdentity (updatePlayer update idx player) = playerIdentity player.
Proof. reflexivity. Qed.

(** The store that [updateGameState] builds when a game state is held. *)
Lemma updateGameState_some update s g :
  gameState s = Some g →
  updateGameState update s
  = mkGameStore (sessionId s) (isConnected s) (connectionError s)
      (Some (GameState.mk
               (GameState.session_id g)
               (GameStateUpdate.hand_number update)
               (GameStateUpdate.street update)
               (GameStateUpdate.pot update)
               (GameStateUpdate.community_cards update)
               (GameState.button_position g)
               (GameStateUpdate.current_actor update)
               (imap (updatePlayer update) (GameState.players g))
               (GameStateUpdate.available_actions update)))
      (thinkingStreams s) (reasoningHistory s) (timer s) (handComplete s)
      (is_zero (GameStateUpdate.current_actor update))
      (GameStateUpdate.available_actions update)
      (GameStateUpdate.last_actions update).
Proof. intros Hg. unfold updateGameState. rewrite Hg. reflexivity. Qed.

(** Merging the same delta twice is merging it once, in every store. *)
Lemma updateGameState_idemp update s :
  updateGameState update (updateGameState update s)
  = updateGameState update s.
Proof.
  destruct (gameState s) as [g|] eqn:Hg.
  - rewrite (updateGameState_some update s g Hg).
    erewrite updateGameState_some by reflexivity.
    cbv [sessionId isConnected connectionError thinkingStreams
         reasoningHistory timer handComplete GameState.session_id
         GameState.button_position GameState.players].
    by rewrite imap_updatePlayer_idemp.
  - unfold updateGameState at 2 3. rewrite Hg.
    unfold updateGameState. by rewrite Hg.
Qed.

(** C4: in a store that holds a game state, applying [updateGameState]
    twice with the same delta gives the same store as applying it once. *)
Theorem updateGameState_idempotent update s g :
  gameState s = Some g →
  updateGameState update (updateGameState update s)
  = updateGameState update s.
Proof. intros _. apply updateGameState_idemp. Qed.

Lemma updateGameState_idempotent_witness :
  gameState humanTurnStore = Some sampleState ∧
  updateGameState sampleUpdate (updateGameState sampleUpdate humanTurnStore)
  = updateGameState sampleUpdate humanTurnStore.
Proof.
  split; [reflexivity|].
  apply (updateGameState_idempotent sampleUpdate humanTurnStore sampleState).
  reflexivity.
Defined.

(** C5: in a store that holds a game state, [updateGameState] keeps the
    session id, the button position, the number of players and, for each
    player, its id, name, player type, model, hole cards, active flag and
    busted flag. *)
Theorem updateGameState_frame update s g :
  gameState s = Some g →
  ∃ g', gameState (updateGameState update s) = Some g' ∧
    GameState.session_id g' = GameState.session_id g ∧
    GameState.button_position g' = GameState.button_position g ∧
    playerIdentity <$> GameState.players g'
    = playerIdentity <$> GameState.players g.
Proof.
  intros Hg. unfold updateGameState. rewrite Hg. cbn.
  eexists; split; [reflexivity|]. cbn. repeat split.
  apply list_eq; intros i.
  rewrite !list_lookup_fmap, list_lookup_imap.
  by destruct (GameState.players g !! i).
Qed.

Lemma updateGameState_frame_witness :
  gameState humanTurnStore = Some sampleState ∧
  ∃ g', gameState (updateGameState sampleUpdate humanTurnStore) = Some g' ∧
    GameState.session_id g' = "s-1" ∧
    GameState.button_position g' = 0 ∧
    playerIdentity <$> GameState.players g'
    = playerIdentity <$> samplePlayers.
Proof.
  split; [reflexivity|].
  apply (updateGameState_frame sampleUpdate humanTurnStore sampleState).
  reflexivity.
Defined.

(** C6, as stated, fails for a delta that arrives before any full state:
    the delta is dropped, so the my-turn flag stays false although the
    delta names slot 0 as the current actor. *)
Lemma delta_without_state_my_turn :
  let data := GameStateUpdateEvent sampleUpdate in
  let s' := onmessage 0 data initialState in
  event_current_actor data = Some (Some 0) ∧
  ¬ (isMyTurn s' = true ↔ event_current_actor data = Some (Some 0)).
Proof.
  split; [reflexivity|]. intros [_ H].
  specialize (H eq_refl). vm_compute in H. discriminate H.
Qed.

(** C6 (amended): after a full-state event, and after a delta event
    processed by a store that holds a game state, the my-turn flag is true
    exactly when the current actor of the event is slot 0. *)
Theorem my_turn_follows_current_actor now data s actor :
  event_current_actor data = Some actor →
  (is_delta_event data = true → is_Some (gameState s)) →
  isMyTurn (onmessage now data s) = true ↔ actor = Some 0.
Proof.
  intros Hev Hst. destruct data; try discriminate; cbn in *.
  - injection Hev as <-. unfold is_zero. apply bool_decide_eq_true.
  - injection Hev as <-. destruct (Hst eq_refl) as [g Hg].
    unfold updateGameState. rewrite Hg. cbn.
    unfold is_zero. apply bool_decide_eq_true.
Qed.

Lemma my_turn_follows_current_actor_witness :
  isMyTurn (onmessage 5 (GameStateUpdateEvent sampleUpdate) thinkingStore)
  = true ↔ Some 0 = Some 0.
Proof.
  apply (my_turn_follows_current_actor 5 (GameStateUpdateEvent sampleUpdate)
           thinkingStore (Some 0)).
  - reflexivity.
  - intros _. exists sampleState. reflexivity.
Defined.

(** ** Reasoning streams *)

Lemma string_app_assoc (a b c : string) : (a +:+ b) +:+ c = a +:+ b +:+ c.
Proof.
  induction a as [|ch a IH]; [reflexivity|].
  change (String ch ((a +:+ b) +:+ c) = String ch (a +:+ b +:+ c)).
  by rewrite IH.
Qed.

Lemma string_app_empty_r (a : string) : a +:+ EmptyString = a.
Proof.
  induction a as [|ch a IH]; [reflexivity|].
  change (String ch (a +:+ EmptyString) = String ch a).
  by rewrite IH.
Qed.

Lemma with_tokens_id stream :
  with_tokens stream (ThinkingStream.tokens stream) = stream.
Proof. by destruct stream. Qed.

(** One token: the text grows at the end, the other fields of the stream
    and the streams of the other players stay. *)
Lemma addThinkingToken_lookup playerId token s stream :
  thinkingStreams s !! playerId = Some stream →
  thinkingStreams (addThinkingToken playerId token s) !! playerId
  = Some (with_tokens stream (ThinkingStream.tokens stream +:+ token)) ∧
  ∀ q, q ≠ playerId →
    thinkingStreams (addThinkingToken playerId token s) !! q
    = thinkingStreams s !! q.
Proof.
  intros Hs. unfold addThinkingToken. rewrite Hs. cbn. split.
  - by rewrite lookup_insert_eq.
  - intros q Hq. by rewrite lookup_insert_ne.
Qed.

(** C3: for a player whose thinking stream exists, delivering any finite
    sequence of [thinking_token] events for that player appends their
    texts, in delivery order, to the text the stream had; the other fields
    of the stream and the streams of all other players are unchanged. *)
Theorem token_accumulation playerId evs s stream :
  thinkingStreams s !! playerId = Some stream →
  Forall (λ ev, is_token_for playerId ev.2 = true) evs →
  thinkingStreams (deliver evs s) !! playerId
  = Some (with_tokens stream (ThinkingStream.tokens stream +:+ payloads evs))
  ∧ ∀ q, q ≠ playerId →
      thinkingStreams (deliver evs s) !! q = thinkingStreams s !! q.
Proof.
  intros Hs Hall. revert s stream Hs.
  induction Hall as [|[now data] evs Hev _ IH]; intros s stream Hs.
  - cbn. by rewrite string_app_empty_r, with_tokens_id.
  - destruct data; try discriminate Hev. cbn in Hev.
    apply bool_decide_eq_true in Hev as ->.
    destruct (addThinkingToken_lookup playerId token s stream Hs)
      as [Hp Hq].
    destruct (IH _ _ Hp) as [IHp IHq].
    unfold deliver in *. cbn. split.
    + rewrite IHp. cbn. by rewrite string_app_assoc.
    + intros q Hne. rewrite IHq, Hq by done. done.
Qed.

Lemma token_accumulation_witness :
  thinkingStreams
    (deliver [ (3, ThinkingTokenEvent 1 "fo" 3);
               (4, ThinkingTokenEvent 1 "ld" 4) ] thinkingStore) !! 1
  = Some (ThinkingStream.mk 1 true "I fold" None 1).
Proof.
  apply (token_accumulation 1
           [ (3, ThinkingTokenEvent 1 "fo" 3);
             (4, ThinkingTokenEvent 1 "ld" 4) ]
           thinkingStore (ThinkingStream.mk 1 true "I " None 1)).
  - reflexivity.
  - repeat constructor.
Defined.

(** C7: when the player has a thinking stream, [completeThinking] keeps the
    accumulated text of the stream, sets its active flag to false and
    records the action of the event as its parsed action; the handler of
    [thinking_complete] is that reducer. *)
Theorem completeThinking_freezes now playerId action s stream :
  thinkingStreams s !! playerId = Some stream →
  let s' := completeThinking now playerId action s in
  (∀ full_text duration_ms,
     onmessage now
       (ThinkingCompleteEvent playerId action full_text duration_ms) s = s') ∧
  ∃ stream', thinkingStreams s' !! playerId = Some stream' ∧
    ThinkingStream.tokens stream' = ThinkingStream.tokens stream ∧
    ThinkingStream.isActive stream' = false ∧
    ThinkingStream.parsedAction stream' = Some action.
Proof.
  intros Hs. cbn. split; [done|].
  unfold completeThinking. rewrite Hs. cbn.
  rewrite lookup_insert_eq. eexists; split; [reflexivity|]. by cbn.
Qed.

Lemma completeThinking_freezes_witness :
  ∃ stream',
    thinkingStreams
      (completeThinking 9 1 (ParsedAction.mk raise (Some 300)) thinkingStore)
      !! 1 = Some stream' ∧
    ThinkingStream.tokens stream' = "I " ∧
    ThinkingStream.isActive stream' = false ∧
    ThinkingStream.parsedAction stream'
    = Some (ParsedAction.mk raise (Some 300)).
Proof.
  apply (completeThinking_freezes 9 1 (ParsedAction.mk raise (Some 300))
           thinkingStore (ThinkingStream.mk 1 true "I " None 1)).
  reflexivity.
Defined.

(** The history entry of a player that [startThinking] leaves in place. *)
Lemma startThinking_history now playerId playerName s :
  reasoningHistory (startThinking now playerId playerName s) !! playerId
  = Some (nullish (reasoningHistory s !! playerId)
            (PlayerReasoningHistory.mk playerId playerName [] true)).
Proof. unfold startThinking; cbn. by rewrite lookup_insert_eq. Qed.

(** Starting again overwrites the stream and finds the history in place. *)
Lemma startThinking_twice now now' playerId playerName playerName' s :
  startThinking now' playerId playerName'
    (startThinking now playerId playerName s)
  = startThinking now' playerId playerName s.
Proof.
  unfold startThinking at 1. rewrite startThinking_history.
  unfold startThinking; cbn.
  unfold set_reasoningHistory, set_thinkingStreams; cbn.
  by rewrite !insert_insert_eq.
Qed.

(** With the timestamps blanked, the time of the start does not show. *)
Lemma forget_startTime_startThinking now now' playerId playerName s :
  forget_startTime (startThinking now playerId playerName s)
  = forget_startTime (startThinking now' playerId playerName s).
Proof.
  unfold forget_startTime, startThinking; cbn.
  unfold set_thinkingStreams; cbn. by rewrite !fmap_insert.
Qed.

(** C8: [startThinking] leaves for the player a stream with empty text,
    active flag true and no parsed action; applied twice for the same
    player it gives the store that one application gives, up to the start
    timestamp: the second application yields exactly the store of a single
    application made at the later time, and the two stores agree once the
    start timestamps are blanked. *)
Theorem startThinking_idempotent now now' playerId playerName s :
  let once := startThinking now playerId playerName s in
  let twice := startThinking now' playerId playerName once in
  thinkingStreams once !! playerId
  = Some (ThinkingStream.mk playerId true EmptyString None now) ∧
  twice = startThinking now' playerId playerName s ∧
  forget_startTime twice = forget_startTime once.
Proof.
  cbn. split; [|split].
  - unfold startThinking; cbn. by rewrite lookup_insert_eq.
  - apply startThinking_twice.
  - rewrite startThinking_twice. apply forget_startTime_startThinking.
Qed.

(** ** Well-formed stores *)

Lemma startThinking_wf now playerId playerName s :
  store_wf s → store_wf (startThinking now playerId playerName s).
Proof.
  intros [Hst Hh]. split; unfold startThinking; cbn.
  - apply map_Forall_insert_2; [|done]. split; [done|]. by cbn.
  - apply map_Forall_insert_2; [|done].
    destruct (reasoningHistory s !! playerId) as [h|] eqn:Hl; cbn.
    + by apply (Hh _ _ Hl).
    + split; [done|]. constructor.
Qed.

Lemma addThinkingToken_wf playerId token s :
  store_wf s → store_wf (addThinkingToken playerId token s).
Proof.
  intros [Hst Hh]. unfold addThinkingToken.
  destruct (thinkingStreams s !! playerId) as [stream|] eqn:Hl; [|done].
  split; cbn; [|done].
  apply map_Forall_insert_2; [|done]. apply (Hst _ _ Hl).
Qed.

Lemma completeThinking_wf now playerId action s :
  store_wf s → store_wf (completeThinking now playerId action s).
Proof.
  intros [Hst Hh]. unfold completeThinking.
  destruct (thinkingStreams s !! playerId) as [stream|] eqn:Hl; [|done].
  split; cbn.
  - apply map_Forall_insert_2; [|done].
    split; cbn; [apply (Hst _ _ Hl)|]. split; discriminate.
  - apply map_Forall_insert_2; [|done].
    destruct (reasoningHistory s !! playerId) as [h|] eqn:Hl'.
    + destruct (Hh _ _ Hl') as [Hid Hen]. split; cbn; [done|].
      apply Forall_app; split; [done|]. repeat constructor. by eexists.
    + split; cbn; [done|]. repeat constructor. by eexists.
Qed.

Lemma onmessage_wf now data s : store_wf s → store_wf (onmessage now data s).
Proof.
  intros Hwf. destruct data; cbn [onmessage];
    auto using startThinking_wf, addThinkingToken_wf, completeThinking_wf.
  - destruct Hwf as [_ Hh]. split; [apply map_Forall_empty|exact Hh].
  - unfold updateGameState. destruct (gameState s); exact Hwf.
  - unfold updateTimer. destruct (timer s); exact Hwf.
  - unfold expireTimer. destruct (timer s); exact Hwf.
  - split; apply map_Forall_empty.
Qed.

(** Every store reached from the initial one, whatever events are
    delivered, files each thinking stream and each reasoning history under
    the id it carries, keeps a stream active exactly while it has no parsed
    action, and has a parsed action in every history entry. *)
Theorem reachable_store_wf evs : store_wf (deliver evs initialState).
Proof.
  assert (H : ∀ s, store_wf s → store_wf (deliver evs s)).
  { induction evs as [|[now data] evs IH]; intros s Hs; [done|].
    apply IH. by apply onmessage_wf. }
  apply H. split; apply map_Forall_empty.
Qed.

(** ** What the events leave alone *)

(** A reasoning event ([thinking_start], [thinking_token],
    [thinking_complete]) changes nothing but the thinking streams and the
    reasoning history: the game state, the timer, the my-turn flag, the
    available actions, the last actions, the hand-complete state and the
    connection fields stay. *)
Theorem thinking_event_frame now data s :
  is_thinking_event data = true →
  let s' := onmessage now data s in
  gameState s' = gameState s ∧ timer s' = timer s ∧
  isMyTurn s' = isMyTurn s ∧ availableActions s' = availableActions s ∧
  lastActions s' = lastActions s ∧ handComplete s' = handComplete s ∧
  sessionId s' = sessionId s ∧ isConnected s' = isConnected s ∧
  connectionError s' = connectionError s.
Proof.
  destruct data; try discriminate; intros _; cbn [onmessage].
  - unfold startThinking. repeat split.
  - unfold addThinkingToken.
    destruct (thinkingStreams s !! player_id); repeat split.
  - unfold completeThinking.
    destruct (thinkingStreams s !! player_id); repeat split.
Qed.

Lemma thinking_event_frame_witness :
  is_thinking_event (ThinkingStartEvent 1 "Bot") = true ∧
  timer (onmessage 3 (ThinkingStartEvent 1 "Bot") humanTurnStore)
  = timer humanTurnStore.
Proof.
  split; [reflexivity|].
  apply (thinking_event_frame 3 (ThinkingStartEvent 1 "Bot") humanTurnStore).
  reflexivity.
Defined.

(** A full-state or delta event never touches the reasoning history, the
    timer, the hand-complete state or the connection fields: the history
    outlives a resynchronisation that clears the streams. *)
Theorem state_event_frame now data s :
  is_Some (event_current_actor data) →
  let s' := onmessage now data s in
  reasoningHistory s' = reasoningHistory s ∧ timer s' = timer s ∧
  handComplete s' = handComplete s ∧ sessionId s' = sessionId s ∧
  isConnected s' = isConnected s ∧
  connectionError s' = connectionError s.
Proof.
  intros [actor Hev]. destruct data; try discriminate; cbn [onmessage].
  - repeat split.
  - unfold updateGameState. destruct (gameState s); repeat split.
Qed.

Lemma state_event_frame_witness :
  reasoningHistory (onmessage 5 (GameStateEvent sampleState) thinkingStore)
  = reasoningHistory thinkingStore.
Proof.
  apply (state_event_frame 5 (GameStateEvent sampleState) thinkingStore).
  by eexists.
Defined.

(** Only [thinking_start] can add a thinking stream: after any other event
    every player that has a stream had one before. *)
Theorem only_start_adds_streams now data s :
  is_thinking_start data = false →
  dom (thinkingStreams (onmessage now data s)) ⊆ dom (thinkingStreams s).
Proof.
  intros Hne. destruct data; try discriminate; cbn [onmessage];
    try (cbn; set_solver).
  - unfold updateGameState. destruct (gameState s); cbn; set_solver.
  - unfold addThinkingToken.
    destruct (thinkingStreams s !! player_id) as [st|] eqn:Hl; [|done].
    cbn. rewrite dom_insert_L.
    apply union_least; [|done].
    apply singleton_subseteq_l, elem_of_dom. eauto.
  - unfold completeThinking.
    destruct (thinkingStreams s !! player_id) as [st|] eqn:Hl; [|done].
    cbn. rewrite dom_insert_L.
    apply union_least; [|done].
    apply singleton_subseteq_l, elem_of_dom. eauto.
  - unfold updateTimer. destruct (timer s); cbn; set_solver.
  - unfold expireTimer. destruct (timer s); cbn; set_solver.
Qed.

Lemma only_start_adds_streams_witness :
  dom (thinkingStreams
         (onmessage 3 (ThinkingTokenEvent 2 "x" 3) thinkingStore))
  ⊆ dom (thinkingStreams thinkingStore).
Proof.
  apply (only_start_adds_streams 3 (ThinkingTokenEvent 2 "x" 3) thinkingStore).
  reflexivity.
Defined.

(** ** The life of a thinking stream *)

Lemma deliver_app evs1 evs2 s :
  deliver (evs1 ++ evs2) s = deliver evs2 (deliver evs1 s).
Proof. unfold deliver. apply foldl_app. Qed.

Lemma set_thinkingStreams_id s : set_thinkingStreams s (thinkingStreams s) = s.
Proof. by destruct s. Qed.

Lemma deliver_tokens_eq playerId evs s stream :
  thinkingStreams s !! playerId = Some stream →
  Forall (λ ev, is_token_for playerId ev.2 = true) evs →
  deliver evs s
  = set_thinkingStreams s
      (<[playerId :=
           with_tokens stream (ThinkingStream.tokens stream +:+ payloads evs)]>
         (thinkingStreams s)).
Proof.
  intros Hs Hall. revert s stream Hs.
  induction Hall as [|[now data] evs Hev _ IH]; intros s stream Hs.
  - cbn. rewrite string_app_empty_r, with_tokens_id, insert_id by done.
    by rewrite set_thinkingStreams_id.
  - destruct data; try discriminate Hev. cbn in Hev.
    apply bool_decide_eq_true in Hev as ->.
    change (deliver ((now, ThinkingTokenEvent playerId token timestamp) :: evs) s)
      with (deliver evs (addThinkingToken playerId token s)).
    assert (Hstep : addThinkingToken playerId token s
      = set_thinkingStreams s
          (<[playerId :=
               with_tokens stream (ThinkingStream.tokens stream +:+ token)]>
             (thinkingStreams s))).
    { unfold addThinkingToken. by rewrite Hs. }
    rewrite Hstep. erewrite IH by (cbn; apply lookup_insert_eq).
    unfold set_thinkingStreams; cbn.
    by rewrite insert_insert_eq, string_app_assoc.
Qed.

(** Token events for a player with a stream rewrite that one stream and no
    other part of the store: the store afterwards is the store before with
    the player's stream holding the old text followed by the tokens. *)
Theorem deliver_tokens_store playerId evs s stream :
  thinkingStreams s !! playerId = Some stream →
  Forall (λ ev, is_token_for playerId ev.2 = true) evs →
  deliver evs s
  = set_thinkingStreams s
      (<[playerId :=
           with_tokens stream (ThinkingStream.tokens stream +:+ payloads evs)]>
         (thinkingStreams s)).
Proof. apply deliver_tokens_eq. Qed.

Lemma deliver_tokens_store_witness :
  deliver [ (3, ThinkingTokenEvent 1 "fo" 3);
            (4, ThinkingTokenEvent 1 "ld" 4) ] thinkingStore
  = set_thinkingStreams thinkingStore
      (<[1 := ThinkingStream.mk 1 true "I fold" None 1]>
         (thinkingStreams thinkingStore)).
Proof.
  apply (deliver_tokens_store 1
           [ (3, ThinkingTokenEvent 1 "fo" 3);
             (4, ThinkingTokenEvent 1 "ld" 4) ]
           thinkingStore (ThinkingStream.mk 1 true "I " None 1)).
  - reflexivity.
  - repeat constructor.
Defined.



(** A whole turn of an automated player: after [thinking_start], any
    number of [thinking_token] events for the player and
    [thinking_complete], the player's stream is inactive, holds exactly the
    concatenated tokens and the action of the completion, and the last
    entry of the player's history carries the same text and action.  The
    [full_text] of the completion event is not used. *)
Theorem thinking_turn t0 t1 playerId name toks action full_text duration s :
  Forall (λ ev, is_token_for playerId ev.2 = true) toks →
  let s' :=
    deliver ((t0, ThinkingStartEvent playerId name) :: toks ++
             [(t1, ThinkingCompleteEvent playerId action full_text duration)])
      s in
  thinkingStreams s' !! playerId
  = Some (ThinkingStream.mk playerId false (payloads toks) (Some action) t0) ∧
  gameState s' = gameState s ∧
  ∃ h, reasoningHistory s' !! playerId = Some h ∧
    last (PlayerReasoningHistory.entries h)
    = Some (completedEntry t1 s (payloads toks) action).
Proof.
  intros Hall. cbn zeta.
  change (deliver ((t0, ThinkingStartEvent playerId name) :: ?l) s)
    with (deliver l (startThinking t0 playerId name s)).
  rewrite deliver_app.
  set (s0 := startThinking t0 playerId name s).
  assert (H0 : thinkingStreams s0 !! playerId
               = Some (ThinkingStream.mk playerId true EmptyString None t0)).
  { unfold s0, startThinking; cbn. apply lookup_insert_eq. }
  rewrite (deliver_tokens_eq playerId toks s0 _ H0 Hall).
  set (s1 := set_thinkingStreams s0 _).
  change (deliver [(t1, ThinkingCompleteEvent playerId action full_text
                          duration)] s1)
    with (completeThinking t1 playerId action s1).
  assert (H1 : thinkingStreams s1 !! playerId
               = Some (ThinkingStream.mk playerId true (payloads toks) None t0)).
  { unfold s1; cbn. apply lookup_insert_eq. }
  split; [|split].
  - unfold completeThinking. rewrite H1. cbn. by rewrite lookup_insert_eq.
  - unfold completeThinking. rewrite H1. reflexivity.
  - unfold completeThinking. rewrite H1.
    cbn [reasoningHistory set_reasoningHistory].
    rewrite lookup_insert_eq. eexists. split; [reflexivity|].
    destruct (reasoningHistory s1 !! playerId); cbn; [|reflexivity].
    apply last_snoc.
Qed.

Lemma thinking_turn_witness :
  thinkingStreams
    (deliver [ (1, ThinkingStartEvent 1 "Bot");
               (2, ThinkingTokenEvent 1 "I " 2);
               (3, ThinkingTokenEvent 1 "call" 3);
               (4, ThinkingCompleteEvent 1 (ParsedAction.mk call None)
                     "ignored" 3000) ] initialState) !! 1
  = Some (ThinkingStream.mk 1 false "I call"
            (Some (ParsedAction.mk call None)) 1).
Proof.
  apply (thinking_turn 1 4 1 "Bot"
           [ (2, ThinkingTokenEvent 1 "I " 2);
             (3, ThinkingTokenEvent 1 "call" 3) ]
           (ParsedAction.mk call None) "ignored" 3000 initialState).
  repeat constructor.
Defined.

(** [clearThinking] removes the stream of the player and no other one; a
    second call changes nothing more. *)
Theorem clearThinking_removes playerId s :
  thinkingStreams (clearThinking playerId s) !! playerId = None ∧
  (∀ q, q ≠ playerId →
     thinkingStreams (clearThinking playerId s) !! q
     = thinkingStreams s !! q) ∧
  clearThinking playerId (clearThinking playerId s)
  = clearThinking playerId s.
Proof.
  unfold clearThinking; cbn. split; [|split].
  - apply lookup_delete_eq.
  - intros q Hq. by apply lookup_delete_ne.
  - unfold set_thinkingStreams; cbn. by rewrite delete_delete_eq.
Qed.

(** Reasoning tokens and completions that arrive after the streams were
    emptied (by a full state or by the end of a hand) and before the next
    [thinking_start] are all dropped: the store stays the one the emptying
    event left. *)
Theorem late_stream_updates_dropped now data evs s :
  clears_streams data = true →
  Forall (λ ev, is_stream_update ev.2 = true) evs →
  deliver ((now, data) :: evs) s = onmessage now data s.
Proof.
  intros Hc Hall.
  change (deliver ((now, data) :: evs) s)
    with (deliver evs (onmessage now data s)).
  assert (He : thinkingStreams (onmessage now data s) = ∅)
    by (destruct data; try discriminate; reflexivity).
  revert He. generalize (onmessage now data s). clear Hc.
  induction Hall as [|[t ev] evs Hev _ IH]; intros s0 He; [done|].
  change (deliver ((t, ev) :: evs) s0) with (deliver evs (onmessage t ev s0)).
  assert (Hs : onmessage t ev s0 = s0).
  { destruct ev; try discriminate Hev; cbn [onmessage].
    - unfold addThinkingToken. by rewrite He, lookup_empty.
    - unfold completeThinking. by rewrite He, lookup_empty. }
  rewrite Hs. by apply IH.
Qed.

Lemma late_stream_updates_dropped_witness :
  deliver [ (5, GameStateEvent sampleState);
            (6, ThinkingTokenEvent 1 "fold" 6);
            (7, ThinkingCompleteEvent 1 (ParsedAction.mk fold None) "x" 9) ]
    thinkingStore
  = onmessage 5 (GameStateEvent sampleState) thinkingStore.
Proof.
  apply (late_stream_updates_dropped 5 (GameStateEvent sampleState)
           [ (6, ThinkingTokenEvent 1 "fold" 6);
             (7, ThinkingCompleteEvent 1 (ParsedAction.mk fold None) "x" 9) ]
           thinkingStore).
  - reflexivity.
  - repeat constructor.
Defined.

(** Expanding and collapsing a player's history: the flag of an existing
    history is inverted, and doing it twice gives back the store. *)
Theorem toggleReasoningExpanded_twice playerId s :
  PlayerReasoningHistory.isExpanded
    <$> reasoningHistory (toggleReasoningExpanded playerId s) !! playerId
  = negb ∘ PlayerReasoningHistory.isExpanded
    <$> reasoningHistory s !! playerId ∧
  toggleReasoningExpanded playerId (toggleReasoningExpanded playerId s) = s.
Proof.
  unfold toggleReasoningExpanded at 1 3.
  destruct (reasoningHistory s !! playerId) as [h|] eqn:Hl.
  - split; [cbn; by rewrite lookup_insert_eq|].
    unfold toggleReasoningExpanded; cbn. rewrite lookup_insert_eq.
    unfold set_reasoningHistory; cbn. rewrite insert_insert_eq, negb_involutive.
    destruct h; cbn. rewrite insert_id by done. by destruct s.
  - split; [by rewrite Hl|]. unfold toggleReasoningExpanded. by rewrite Hl.
Qed.

(** ** The countdown *)

Lemma deliver_snoc evs now data s :
  deliver (evs ++ [(now, data)]) s = onmessage now data (deliver evs s).
Proof. by rewrite deliver_app. Qed.

(** Ticks on a running timer change its remaining seconds only: after any
    sequence of [timer_tick] events the store differs from the one before
    in nothing but the remaining seconds, which are those of the last
    tick; the player, the total and the expired flag of the timer stay as
    they were (so a tick after the expiry leaves the timer expired). *)
Theorem ticks_update_remaining evs s t :
  timer s = Some t →
  Forall (λ ev, is_timer_tick ev.2 = true) evs →
  deliver evs s
  = set_timer s
      (Some (TurnTimerState.mk
               (TurnTimerState.playerId t)
               (TurnTimerState.totalSeconds t)
               (nullish (last (ticks evs)) (TurnTimerState.remainingSeconds t))
               (TurnTimerState.isExpired t))).
Proof.
  intros Ht. induction evs as [|[now data] evs IH] using rev_ind; intros Hall.
  - destruct s, t; cbn in Ht |- *. by rewrite Ht.
  - apply Forall_app in Hall as [Hall Hev]. rewrite Forall_singleton in Hev.
    rewrite deliver_snoc, (IH Hall).
    destruct data; try discriminate Hev.
    unfold ticks. rewrite omap_app. cbn. by rewrite last_snoc.
Qed.

Lemma ticks_update_remaining_witness :
  timer (deliver [ (3, TimerTickEvent 0 29); (4, TimerTickEvent 0 28) ]
           humanTurnStore)
  = Some (TurnTimerState.mk 0 30 28 false).
Proof.
  rewrite (ticks_update_remaining
             [ (3, TimerTickEvent 0 29); (4, TimerTickEvent 0 28) ]
             humanTurnStore (TurnTimerState.mk 0 30 30 false)).
  - reflexivity.
  - reflexivity.
  - repeat constructor.
Defined.

(** Ticks and expiries that find no timer in the store are dropped: they
    create no timer and, in particular, do not turn the my-turn flag off. *)
Theorem timer_updates_without_timer evs s :
  timer s = None →
  Forall (λ ev, is_timer_update ev.2 = true) evs →
  deliver evs s = s.
Proof.
  intros Ht Hall. induction Hall as [|[now data] evs Hev _ IH]; [done|].
  change (deliver ((now, data) :: evs) s)
    with (deliver evs (onmessage now data s)).
  assert (Hs : onmessage now data s = s).
  { destruct data; try discriminate Hev; cbn [onmessage].
    - unfold updateTimer. by rewrite Ht.
    - unfold expireTimer. by rewrite Ht. }
  by rewrite Hs.
Qed.

Lemma timer_updates_without_timer_witness :
  deliver [ (3, TimerTickEvent 0 12); (4, TimerExpiredEvent 0 "fold") ]
    thinkingStore
  = thinkingStore.
Proof.
  apply (timer_updates_without_timer
           [ (3, TimerTickEvent 0 12); (4, TimerExpiredEvent 0 "fold") ]
           thinkingStore).
  - reflexivity.
  - repeat constructor.
Defined.

(** The two countdown views: the number shown is never negative; the ring
    is green exactly when the timer is not expired and more than 10 seconds
    remain, and red exactly when it is expired or at most 5 seconds remain;
    the inline timer is emerald exactly when the ring is green; the
    critical animation depends on the remaining seconds alone. *)
Theorem timer_views t :
  0 ≤ TurnTimer.shownSeconds t ∧
  (TurnTimer.getColor t = "#10b981"
   ↔ TurnTimerState.isExpired t = false
     ∧ 10 < TurnTimerState.remainingSeconds t) ∧
  (TurnTimer.getColor t = "#ef4444"
   ↔ TurnTimerState.isExpired t = true
     ∨ TurnTimerState.remainingSeconds t ≤ 5) ∧
  (InlineTimer.getColorClass t = "text-emerald-500"
   ↔ TurnTimer.getColor t = "#10b981") ∧
  (TurnTimer.getAnimationClass t = "timer-critical"
   ↔ TurnTimerState.remainingSeconds t ≤ 5).
Proof.
  unfold TurnTimer.shownSeconds, TurnTimer.getColor,
    InlineTimer.getColorClass, TurnTimer.getAnimationClass.
  destruct t as [p total r e]; cbn.
  split; [lia|].
  destruct e; cbn; repeat case_bool_decide;
    repeat split; intros; try discriminate; try lia;
    intuition (try discriminate; try lia).
Qed.

(** ** Sending a move *)

Lemma showsButtons_inv s :
  showsButtons s = true →
  isMyTurn s = true ∧ is_Some (availableActions s) ∧
  ∃ g, gameState s = Some g ∧ GameState.hand_number g ≠ 0.
Proof.
  unfold showsButtons, bottomPanel.
  destruct (gameState s) as [g|]; [|discriminate].
  case_bool_decide; [discriminate|].
  destruct (isMyTurn s).
  - destruct (availableActions s); [eauto|discriminate].
  - destruct (GameState.current_actor g); discriminate.
Qed.

Lemma showsButtons_spec s :
  showsButtons s = true ↔
  isMyTurn s = true ∧ is_Some (availableActions s) ∧
  ∃ g, gameState s = Some g ∧ GameState.hand_number g ≠ 0.
Proof.
  split; [apply showsButtons_inv|].
  intros (Hm & [a Ha] & g & Hg & Hn).
  unfold showsButtons, bottomPanel. rewrite Hg, Hm, Ha.
  by rewrite bool_decide_eq_false_2.
Qed.

(** The move buttons are on screen exactly when a game state is held, its
    hand number is not 0, the my-turn flag is set and the store has
    available actions. *)
Theorem buttons_shown_iff s :
  showsButtons s = true ↔
  isMyTurn s = true ∧ is_Some (availableActions s) ∧
  ∃ g, gameState s = Some g ∧ GameState.hand_number g ≠ 0.
Proof. apply showsButtons_spec. Qed.

(** [sendAction] takes the move buttons and the countdown ring off the
    screen whether or not the message could be sent: with a closed socket
    nothing is written, the move is lost and the controls are gone all the
    same; with an open socket exactly the [player_action] message goes
    out. *)
Theorem sendAction_hides_controls wsOpen actionType amount s :
  showsButtons (sendAction wsOpen actionType amount s).2 = false ∧
  showsTurnTimer (sendAction wsOpen actionType amount s).2 = false ∧
  (sendAction false actionType amount s).1 = [] ∧
  (sendAction true actionType amount s).1
  = [PlayerActionMessage actionType amount].
Proof.
  split; [|split; [|done]].
  - apply not_true_is_false. intros H.
    apply showsButtons_inv in H as [H _]. discriminate H.
  - unfold showsTurnTimer; cbn. by rewrite andb_false_r.
Qed.

(** A [timer_expired] event that finds a timer takes the move buttons and
    the countdown ring off the screen. *)
Theorem timer_expired_hides_controls now player_id action_taken s :
  is_Some (timer s) →
  let s' := onmessage now (TimerExpiredEvent player_id action_taken) s in
  showsButtons s' = false ∧ showsTurnTimer s' = false.
Proof.
  intros [t Ht]. cbn. unfold expireTimer. rewrite Ht. split.
  - apply not_true_is_false. intros H.
    apply showsButtons_inv in H as [H _]. discriminate H.
  - unfold showsTurnTimer; cbn. by rewrite andb_false_r.
Qed.

Lemma timer_expired_hides_controls_witness :
  showsButtons humanTurnStore = true ∧
  showsButtons (onmessage 32 (TimerExpiredEvent 0 "fold") humanTurnStore)
  = false.
Proof.
  split; [reflexivity|].
  apply (timer_expired_hides_controls 32 0 "fold" humanTurnStore).
  by eexists.
Defined.

(** After a delta merged into a held game state, the move buttons are on
    screen exactly when the delta names slot 0 as the current actor,
    carries available actions and has a hand number other than 0. *)
Theorem delta_shows_buttons now update s :
  is_Some (gameState s) →
  showsButtons (onmessage now (GameStateUpdateEvent update) s) = true ↔
  GameStateUpdate.current_actor update = Some 0 ∧
  is_Some (GameStateUpdate.available_actions update) ∧
  GameStateUpdate.hand_number update ≠ 0.
Proof.
  intros [g Hg]. rewrite showsButtons_spec. cbn [onmessage].
  rewrite (updateGameState_some update s g Hg). cbn.
  unfold is_zero. rewrite bool_decide_eq_true. split.
  - intros (Ha & Hav & g' & [= <-] & Hn). done.
  - intros (Ha & Hav & Hn). repeat split; [done..|].
    eexists; split; [reflexivity|done].
Qed.

Lemma delta_shows_buttons_witness :
  showsButtons (onmessage 5 (GameStateUpdateEvent sampleUpdate) thinkingStore)
  = true.
Proof.
  apply (delta_shows_buttons 5 sampleUpdate thinkingStore).
  - by eexists.
  - repeat split; [by eexists|done].
Defined.



(** The check/call button sends "call" whenever checking is not allowed,
    also when calling is not allowed either; the keyboard shortcut sends
    nothing in that case. *)
Theorem handleCheckCall_calls_without_check wsOpen actions s :
  AvailableActions.can_check actions = false →
  (handleCheckCall wsOpen (Some actions) s).1
  = sendMessage wsOpen (PlayerActionMessage "call" None) ∧
  (AvailableActions.can_call actions = false →
   availableActions s = Some actions →
   (handleKeyDown wsOpen "c" s).1 = []).
Proof.
  intros Hc. split.
  - unfold handleCheckCall; cbn. by rewrite Hc.
  - intros Hk Ha. unfold handleKeyDown. rewrite Ha, Hc, Hk.
    by destruct (isMyTurn s).
Qed.

Lemma handleCheckCall_calls_without_check_witness :
  (handleCheckCall true
     (Some (AvailableActions.mk true false false 0 false 0 0))
     humanTurnStore).1
  = [PlayerActionMessage "call" None].
Proof.
  apply (handleCheckCall_calls_without_check true
           (AvailableActions.mk true false false 0 false 0 0) humanTurnStore).
  reflexivity.
Defined.

(** ** Seats *)

Lemma jsRem_small a n :
  0 ≤ a < Z.of_nat n → jsRem a n = Some a.
Proof.
  intros Ha. destruct n as [|n]; [lia|]. cbn [jsRem].
  by rewrite Z.rem_small.
Qed.

Lemma jsRem_wrap a n :
  (0 < n)%nat → Z.of_nat n ≤ a < 2 * Z.of_nat n →
  jsRem a n = Some (a - Z.of_nat n).
Proof.
  intros Hn Ha. destruct n as [|n]; [lia|]. cbn [jsRem]. f_equal.
  symmetry. apply (Z.rem_unique a (Z.of_nat (S n)) 1); lia.
Qed.

(** With at least three players and the button on a seat of the table,
    the small blind and the big blind markers fall on seats of the table,
    and the dealer, small blind and big blind seats are three different
    seats. *)
Theorem blinds_three_seats g :
  (3 ≤ length (GameState.players g))%nat →
  0 ≤ GameState.button_position g < Z.of_nat (length (GameState.players g)) →
  ∃ sb bb : Z,
    sbPosition g = Some sb ∧ bbPosition g = Some bb ∧
    0 ≤ sb < Z.of_nat (length (GameState.players g)) ∧
    0 ≤ bb < Z.of_nat (length (GameState.players g)) ∧
    sb ≠ bb ∧ sb ≠ GameState.button_position g ∧
    bb ≠ GameState.button_position g.
Proof.
  intros Hn Hb. unfold sbPosition, bbPosition.
  set (n := length (GameState.players g)) in *.
  set (b := GameState.button_position g) in *.
  destruct (decide (b + 2 < Z.of_nat n)).
  - exists (b + 1), (b + 2).
    rewrite !jsRem_small by lia. repeat split; lia.
  - destruct (decide (b + 1 < Z.of_nat n)).
    + exists (b + 1), (b + 2 - Z.of_nat n).
      rewrite jsRem_small, jsRem_wrap by lia. repeat split; lia.
    + exists (b + 1 - Z.of_nat n), (b + 2 - Z.of_nat n).
      rewrite !jsRem_wrap by lia. repeat split; lia.
Qed.

Lemma blinds_three_seats_witness :
  ∃ sb bb : Z,
    sbPosition (GameState.mk "s" 1 flop 0 [] 2 None
                  (samplePlayers ++ samplePlayers) None) = Some sb ∧
    bbPosition (GameState.mk "s" 1 flop 0 [] 2 None
                  (samplePlayers ++ samplePlayers) None) = Some bb ∧
    0 ≤ sb < 4 ∧ 0 ≤ bb < 4 ∧ sb ≠ bb ∧ sb ≠ 2 ∧ bb ≠ 2.
Proof.
  apply (blinds_three_seats
           (GameState.mk "s" 1 flop 0 [] 2 None
              (samplePlayers ++ samplePlayers) None)).
  - cbn. lia.
  - cbn. lia.
Defined.

(** At a table of two with the button on one of the two seats, the big
    blind marker is on the dealer's seat and the small blind marker on the
    other one. *)
Theorem blinds_heads_up g :
  length (GameState.players g) = 2%nat →
  0 ≤ GameState.button_position g < 2 →
  bbPosition g = Some (GameState.button_position g) ∧
  sbPosition g = Some (1 - GameState.button_position g).
Proof.
  intros Hn Hb. unfold sbPosition, bbPosition. rewrite Hn.
  destruct (decide (GameState.button_position g = 0)) as [->| ].
  - by cbn.
  - assert (GameState.button_position g = 1) as -> by lia. by cbn.
Qed.

Lemma blinds_heads_up_witness :
  bbPosition sampleState = Some 0 ∧ sbPosition sampleState = Some 1.
Proof.
  apply (blinds_heads_up sampleState); [reflexivity|cbn; lia].
Defined.

(** The thinking marker of a seat: it is on after [thinking_start] for the
    player of the seat, and off after [thinking_complete] for that player,
    after a full state and after the end of a hand, in whatever store the
    event arrives. *)
Theorem seat_thinking_marker now player name action full_text duration
    state winners amounts revealed s :
  isThinking
    (onmessage now (ThinkingStartEvent (PlayerState.id player) name) s)
    player = true ∧
  isThinking
    (onmessage now
       (ThinkingCompleteEvent (PlayerState.id player) action full_text
          duration) s)
    player = false ∧
  isThinking (onmessage now (GameStateEvent state) s) player = false ∧
  isThinking (onmessage now (HandCompleteEvent winners amounts revealed) s)
    player = false.
Proof.
  unfold isThinking. repeat split.
  - cbn. by rewrite lookup_insert_eq.
  - cbn [onmessage]. unfold completeThinking.
    destruct (thinkingStreams s !! PlayerState.id player) eqn:Hl.
    + cbn. by rewrite lookup_insert_eq.
    + by rewrite Hl.
Qed.

(** ** More on deltas *)

Lemma imap_updatePlayer_lookup update (l : list PlayerState.t) i :
  imap (updatePlayer update) l !! i = updatePlayer update i <$> l !! i.
Proof. apply list_lookup_imap. Qed.

(** A delta whose stack and bet arrays have one entry per player
    overwrites every stack and every bet: afterwards the players' stacks
    and bets are exactly the arrays of the delta. *)
Theorem updateGameState_covering update s g :
  gameState s = Some g →
  length (GameStateUpdate.player_stacks update)
  = length (GameState.players g) →
  length (GameStateUpdate.player_bets update)
  = length (GameState.players g) →
  ∃ g', gameState (updateGameState update s) = Some g' ∧
    PlayerState.stack <$> GameState.players g'
    = GameStateUpdate.player_stacks update ∧
    PlayerState.current_bet <$> GameState.players g'
    = GameStateUpdate.player_bets update.
Proof.
  intros Hg Hs Hb. rewrite (updateGameState_some update s g Hg).
  eexists; split; [reflexivity|]. cbn.
  split; apply list_eq; intros i;
    rewrite list_lookup_fmap, imap_updatePlayer_lookup.
  - destruct (GameState.players g !! i) as [p|] eqn:Hp; cbn.
    + destruct (lookup_lt_is_Some_2 (GameStateUpdate.player_stacks update) i)
        as [v Hv]; [rewrite Hs; by eapply lookup_lt_Some|].
      by rewrite Hv.
    + symmetry. apply lookup_ge_None. rewrite Hs. by apply lookup_ge_None.
  - destruct (GameState.players g !! i) as [p|] eqn:Hp; cbn.
    + destruct (lookup_lt_is_Some_2 (GameStateUpdate.player_bets update) i)
        as [v Hv]; [rewrite Hb; by eapply lookup_lt_Some|].
      by rewrite Hv.
    + symmetry. apply lookup_ge_None. rewrite Hb. by apply lookup_ge_None.
Qed.

Lemma updateGameState_covering_witness :
  ∃ g', gameState (updateGameState sampleUpdate humanTurnStore) = Some g' ∧
    PlayerState.stack <$> GameState.players g' = [9900; 9900] ∧
    PlayerState.current_bet <$> GameState.players g' = [0; 0].
Proof.
  apply (updateGameState_covering sampleUpdate humanTurnStore sampleState);
    reflexivity.
Defined.

(** A delta never adds or removes a player and never blanks a last
    action: a player that had one still has one after the merge (a [null]
    or missing entry of the delta keeps the old text). *)
Theorem updateGameState_keeps_last_actions update s g :
  gameState s = Some g →
  ∃ g', gameState (updateGameState update s) = Some g' ∧
    Forall2
      (λ p p', is_Some (PlayerState.last_action p)
               → is_Some (PlayerState.last_action p'))
      (GameState.players g) (GameState.players g').
Proof.
  intros Hg. rewrite (updateGameState_some update s g Hg).
  eexists; split; [reflexivity|]. cbn.
  apply Forall2_same_length_lookup_2; [by rewrite length_imap|].
  intros i p p' Hp Hp'. rewrite imap_updatePlayer_lookup, Hp in Hp'.
  injection Hp' as <-. cbn.
  by destruct (mjoin (GameStateUpdate.last_actions update !! i)).
Qed.

Lemma updateGameState_keeps_last_actions_witness :
  ∃ g', gameState (updateGameState sampleUpdate humanTurnStore) = Some g' ∧
    Forall2
      (λ p p', is_Some (PlayerState.last_action p)
               → is_Some (PlayerState.last_action p'))
      samplePlayers (GameState.players g').
Proof.
  apply (updateGameState_keeps_last_actions sampleUpdate humanTurnStore
           sampleState).
  reflexivity.
Defined.

(** ** The session form *)

